(** * boxlove: the one-door bot of [bot.py]

    A shallow embedding of the three handlers of [bot.py] ([start],
    [handle_message], [on_callback_query]) and of [main], followed by the
    properties of the per-user session state machine they implement.

    The module-level dictionary [user_states] is threaded explicitly; every
    call a handler makes on the platform objects, and every read and write of
    the dictionary, is appended to a log in program order. *)

From Stdlib Require Import ZArith String Ascii List.
From stdpp Require Import gmap strings list fin_maps.

Local Open Scope Z_scope.

(** ** Platform objects, as far as the handlers read them

    [update.message] and [update.callback_query] may be [None], and the
    handlers test them. [update.effective_user], [query.from_user] and
    [query.message] are dereferenced without a test: the updates the three
    handlers are registered for carry them, and they are plain fields here.
    Sending can fail on the network; the calls are recorded as made. *)

Record User := mkUser { User_id : Z (* [.id] *) }.

Record Message := mkMessage { message_id : Z }.

Record InlineKeyboardButton := mkButton {
  button_text : string;
  callback_data : string
}.

(** [InlineKeyboardMarkup(keyboard)]: rows of buttons. *)
Definition InlineKeyboardMarkup := list (list InlineKeyboardButton).

Record CallbackQuery := mkQuery {
  from_user : User;
  data : option string;      (* [query.data] is an optional string *)
  query_message : Message    (* [query.message] *)
}.

Record Update := mkUpdate {
  message : option Message;
  effective_user : User;
  callback_query : option CallbackQuery
}.

(** ** Calls made by the handlers, in program order *)

Inductive call :=
  | states_get (user_id : Z)                      (* user_states.get(user_id) *)
  | states_set (user_id : Z) (state : string)     (* user_states[user_id] = state *)
  | answer                                        (* query.answer() *)
  | reply_text (text : string) (reply_markup : option InlineKeyboardMarkup)
                                                  (* update.message.reply_text *)
  | edit_message_text (text : string) (reply_markup : option InlineKeyboardMarkup)
                                                  (* query.edit_message_text *)
  | message_reply_text (text : string).           (* query.message.reply_text *)

(** What the user gets to see: a text and, possibly, a keyboard. *)
Definition shown (c : call) : option (string * option InlineKeyboardMarkup) :=
  match c with
  | reply_text t k => Some (t, k)
  | edit_message_text t k => Some (t, k)
  | message_reply_text t => Some (t, None)
  | _ => None
  end.

Definition is_answer (c : call) : bool :=
  match c with answer => true | _ => false end.

Definition is_state_access (c : call) : bool :=
  match c with states_get _ | states_set _ _ => true | _ => false end.

(** ** The handler monad: the dictionary is state, the calls are output *)

Definition Handler (A : Type) : Type :=
  gmap Z string -> A * gmap Z string * list call.

#[global] Instance handler_ret : MRet Handler :=
  fun A (a : A) us => (a, us, []).

#[global] Instance handler_bind : MBind Handler :=
  fun A B (f : A -> Handler B) (m : Handler A) us =>
    let '(a, us1, l1) := m us in
    let '(b, us2, l2) := f a us1 in
    (b, us2, l1 ++ l2).

Definition get (user_id : Z) : Handler (option string) :=
  fun us => (us !! user_id, us, [states_get user_id]).

Definition set (user_id : Z) (state : string) : Handler unit :=
  fun us => (tt, <[user_id := state]> us, [states_set user_id state]).

Definition await (c : call) : Handler unit := fun us => (tt, us, [c]).

Definition states_after {A} (r : A * gmap Z string * list call) : gmap Z string :=
  snd (fst r).
Definition calls {A} (r : A * gmap Z string * list call) : list call := snd r.
Definition messages {A} (r : A * gmap Z string * list call)
  : list (string * option InlineKeyboardMarkup) :=
  omap shown (calls r).

(** ** Constants of [bot.py] *)

Definition LF : string := String "010"%char EmptyString.

Definition STATE_NEW : string := "new".
Definition STATE_DOOR_SHOWN : string := "door_shown".
Definition STATE_CLOSED : string := "closed".

(** [state == STATE_X] on the result of [dict.get]. *)
Definition state_eq (state : option string) (s : string) : bool :=
  bool_decide (state = Some s).

(** [data == "..."] on [query.data]. *)
Definition data_eq (d : option string) (s : string) : bool :=
  bool_decide (d = Some s).

Definition door_closed_text : string :=
  "🚪 Дверь уже закрыта." +:+ LF +:+
  "Повтор открыть невозможен.".

Definition intro_keyboard : InlineKeyboardMarkup :=
  [[mkButton "Открыть дверь" "open_intro"]].

Definition intro_text : string :=
  "На сегодня у тебя есть одна дверь." +:+ LF +:+
  "Она откроется только один раз." +:+ LF +:+
  "Если откроешь — вернуться нельзя." +:+ LF +:+ LF +:+
  "Готова?".

Definition door_art : string :=
  "   ┌───────────┐" +:+ LF +:+
  "   │     🚪     │" +:+ LF +:+
  "   │           │" +:+ LF +:+
  "   └───────────┘".

Definition door_keyboard : InlineKeyboardMarkup :=
  [[mkButton "Открыть" "open_door"]].

Definition door_text : string :=
  door_art +:+ LF +:+ LF +:+
  "Она откроется, только если ты действительно хочешь." +:+ LF +:+
  "Это не игра и не квест." +:+ LF +:+
  "Это момент.".

Definition text_1 : string :=
  "…Иногда за дверью ничего не бывает." +:+ LF +:+
  "Просто пространство." +:+ LF +:+
  "Пауза." +:+ LF +:+
  "Мгновение.".

Definition text_2 : string :=
  "Но сегодня — не так." +:+ LF +:+ LF +:+
  "Сегодня за дверью есть одно единственное сообщение:" +:+ LF +:+
  "ты правда заслуживаешь моменты, которые делают день теплее." +:+ LF +:+
  "И я захотел подарить тебе один такой момент." +:+ LF +:+ LF +:+
  "Спасибо, что открыла.".

Definition closing_text : string := "Дверь закрывается…".

Definition closed_text : string :=
  "🚪 Закрыто." +:+ LF +:+
  "Надеюсь, твой день пройдет ярко!".

(** ** The handlers *)

Definition start (update : Update) : Handler unit :=
  match message update with
  | None => mret tt
  | Some _ =>
      let user_id := User_id (effective_user update) in
      state ← get user_id;
      if state_eq state STATE_CLOSED then
        await (reply_text door_closed_text None)
      else
        set user_id STATE_NEW ;;
        await (reply_text intro_text (Some intro_keyboard))
  end.

Definition handle_message (update : Update) : Handler unit :=
  match message update with
  | None => mret tt
  | Some _ =>
      let user_id := User_id (effective_user update) in
      state ← get user_id;
      if state_eq state STATE_CLOSED then
        await (reply_text door_closed_text None)
      else
        start update
  end.

Definition on_callback_query (update : Update) : Handler unit :=
  match callback_query update with
  | None => mret tt
  | Some query =>
      await answer ;;
      let user_id := User_id (from_user query) in
      state ← get user_id;
      if state_eq state STATE_CLOSED then
        await (edit_message_text door_closed_text None)
      else if data_eq (data query) "open_intro" then
        set user_id STATE_DOOR_SHOWN ;;
        await (edit_message_text door_text (Some door_keyboard))
      else if data_eq (data query) "open_door" && state_eq state STATE_DOOR_SHOWN then
        set user_id STATE_CLOSED ;;
        await (edit_message_text text_1 None) ;;
        await (message_reply_text text_2) ;;
        await (message_reply_text closing_text) ;;
        await (message_reply_text closed_text)
      else
        mret tt
  end.

(** ** Events and their dispatch, as registered in [main] *)

Inductive event :=
  | start_command (update : Update)   (* CommandHandler("start", start) *)
  | text_message (update : Update)    (* MessageHandler(TEXT & ~COMMAND, handle_message) *)
  | button_press (update : Update).   (* CallbackQueryHandler(on_callback_query) *)

Definition dispatch (e : event) : Handler unit :=
  match e with
  | start_command update => start update
  | text_message update => handle_message update
  | button_press update => on_callback_query update
  end.

(** Events are handled one after the other on the same dictionary. *)
Fixpoint run (evs : list event) : Handler unit :=
  match evs with
  | [] => mret tt
  | e :: evs' => dispatch e ;; run evs'
  end.

(** The sender of an event, as the handler that receives it reads it. *)
Definition sender (e : event) : option Z :=
  match e with
  | start_command update | text_message update =>
      _ ← message update; Some (User_id (effective_user update))
  | button_press update =>
      query ← callback_query update; Some (User_id (from_user query))
  end.

(** The payload carried by a button press, if any. *)
Definition payload (update : Update) : option string :=
  callback_query update ≫= data.

(** ** Startup *)

Inductive exception := RuntimeError (msg : string).

Inductive registered :=
  | CommandHandler (command : string)
  | CallbackQueryHandler
  | MessageHandler_text_not_command.

Inductive startup_call :=
  | build_application (token : string)   (* ApplicationBuilder().token(t).build() *)
  | add_handler (h : registered)
  | logger_info (msg : string)
  | run_polling.

Definition token_missing_text : string :=
  "BOT_TOKEN не найден в .env файле." +:+ LF +:+
  "Создай рядом с bot.py файл .env со строкой:" +:+ LF +:+
  "BOT_TOKEN=твой_токен_от_BotFather".

(** Python truthiness of [os.getenv(...)]: [None] and the empty string are
    false. *)
Definition truthy (v : option string) : bool :=
  match v with
  | None => false
  | Some EmptyString => false
  | Some _ => true
  end.

(** [main], run in the environment [environ] (after [load_dotenv]): the
    calls it makes, and the exception it raises, if any. *)
Definition main (environ : gmap string string)
  : list startup_call * option exception :=
  let bot_token := environ !! "BOT_TOKEN" in
  if negb (truthy bot_token) then
    ([], Some (RuntimeError token_missing_text))
  else
    ([ build_application (default EmptyString bot_token);
       add_handler (CommandHandler "start");
       add_handler CallbackQueryHandler;
       add_handler MessageHandler_text_not_command;
       logger_info "Бот запущен. Нажми Ctrl+C для остановки.";
       run_polling ], None).

(** ** Concrete updates used in the examples below *)

(** A message (command or text) sent by user [uid]. *)
Definition message_from (uid : Z) : Update :=
  mkUpdate (Some (mkMessage 1)) (mkUser uid) None.

(** A press by user [uid] on a button carrying payload [d]. *)
Definition query_from (uid : Z) (d : string) : CallbackQuery :=
  mkQuery (mkUser uid) (Some d) (mkMessage 1).

Definition press_from (uid : Z) (d : string) : Update :=
  mkUpdate None (mkUser uid) (Some (query_from uid d)).

(** The three values the handlers store. *)
Definition valid_state (s : string) : Prop :=
  s = STATE_NEW \/ s = STATE_DOOR_SHOWN \/ s = STATE_CLOSED.

(** ** Observations on a sequence of events *)

(** The messages shown in answer to the events that user [uid] sent, in
    order, while [evs] is handled from the dictionary [us]. *)
Fixpoint responses (uid : Z) (evs : list event) (us : gmap Z string)
  : list (string * option InlineKeyboardMarkup) :=
  match evs with
  | [] => []
  | e :: evs' =>
      (if bool_decide (sender e = Some uid) then messages (dispatch e us)
       else [])
      ++ responses uid evs' (states_after (dispatch e us))
  end.

(** The events of a sequence that user [uid] sent. *)
Definition events_of (uid : Z) (evs : list event) : list event :=
  filter (fun e => sender e = Some uid) evs.

(** Whether an event is a button press that carries a callback query. *)
Definition is_press (e : event) : bool :=
  match e with
  | button_press update =>
      match callback_query update with Some _ => true | None => false end
  | _ => false
  end.

(** The number of times the gift text occurs in a list of messages. *)
Definition gifts (l : list (string * option InlineKeyboardMarkup)) : nat :=
  length (filter (fun msg => fst msg = text_2) l).

(** * Properties *)

(** ** What each handler does, by case on the stored state *)

Lemma state_eq_true (state : option string) (s : string) :
  state_eq state s = true <-> state = Some s.
Proof. unfold state_eq. apply bool_decide_eq_true. Qed.

Lemma state_eq_false (state : option string) (s : string) :
  state_eq state s = false <-> state <> Some s.
Proof. unfold state_eq. apply bool_decide_eq_false. Qed.

Lemma state_eq_refl (s : string) : state_eq (Some s) s = true.
Proof. now apply state_eq_true. Qed.

Lemma data_eq_true (d : option string) (s : string) :
  data_eq d s = true <-> d = Some s.
Proof. unfold data_eq. apply bool_decide_eq_true. Qed.

Lemma data_eq_false (d : option string) (s : string) :
  data_eq d s = false <-> d <> Some s.
Proof. unfold data_eq. apply bool_decide_eq_false. Qed.

Section Equations.
Context (update : Update) (us : gmap Z string).

Lemma start_no_message :
  message update = None -> start update us = (tt, us, []).
Proof. intros H. unfold start. now rewrite H. Qed.

Lemma start_eq (m : Message) :
  message update = Some m ->
  let user_id := User_id (effective_user update) in
  start update us =
    if state_eq (us !! user_id) STATE_CLOSED then
      (tt, us, [states_get user_id; reply_text door_closed_text None])
    else
      (tt, <[user_id := STATE_NEW]> us,
       [states_get user_id; states_set user_id STATE_NEW;
        reply_text intro_text (Some intro_keyboard)]).
Proof.
  intros Hm user_id. unfold start. rewrite Hm. fold user_id.
  cbv [mbind handler_bind get set await].
  destruct (state_eq (us !! user_id) STATE_CLOSED); reflexivity.
Qed.

Lemma handle_message_no_message :
  message update = None -> handle_message update us = (tt, us, []).
Proof. intros H. unfold handle_message. now rewrite H. Qed.

(** In the branch that calls [start], the state is looked up a second
    time, by [start] itself. *)
Lemma handle_message_eq (m : Message) :
  message update = Some m ->
  let user_id := User_id (effective_user update) in
  handle_message update us =
    if state_eq (us !! user_id) STATE_CLOSED then
      (tt, us, [states_get user_id; reply_text door_closed_text None])
    else
      (tt, <[user_id := STATE_NEW]> us,
       [states_get user_id; states_get user_id;
        states_set user_id STATE_NEW;
        reply_text intro_text (Some intro_keyboard)]).
Proof.
  intros Hm user_id. unfold handle_message. rewrite Hm. fold user_id.
  cbv [mbind handler_bind get].
  destruct (state_eq (us !! user_id) STATE_CLOSED) eqn:E; [reflexivity|].
  rewrite (start_eq m Hm). fold user_id. now rewrite E.
Qed.

Lemma on_callback_query_no_query :
  callback_query update = None -> on_callback_query update us = (tt, us, []).
Proof. intros H. unfold on_callback_query. now rewrite H. Qed.

Lemma on_callback_query_eq (query : CallbackQuery) :
  callback_query update = Some query ->
  let user_id := User_id (from_user query) in
  let state := us !! user_id in
  on_callback_query update us =
    if state_eq state STATE_CLOSED then
      (tt, us, [answer; states_get user_id;
                edit_message_text door_closed_text None])
    else if data_eq (data query) "open_intro" then
      (tt, <[user_id := STATE_DOOR_SHOWN]> us,
       [answer; states_get user_id; states_set user_id STATE_DOOR_SHOWN;
        edit_message_text door_text (Some door_keyboard)])
    else if data_eq (data query) "open_door"
            && state_eq state STATE_DOOR_SHOWN then
      (tt, <[user_id := STATE_CLOSED]> us,
       [answer; states_get user_id; states_set user_id STATE_CLOSED;
        edit_message_text text_1 None;
        message_reply_text text_2;
        message_reply_text closing_text;
        message_reply_text closed_text])
    else
      (tt, us, [answer; states_get user_id]).
Proof.
  intros Hq user_id state. unfold on_callback_query. rewrite Hq.
  fold user_id. cbv [mbind handler_bind get set await]. fold state.
  destruct (state_eq state STATE_CLOSED); [reflexivity|].
  destruct (data_eq (data query) "open_intro"); [reflexivity|].
  destruct (data_eq (data query) "open_door" && state_eq state STATE_DOOR_SHOWN);
    reflexivity.
Qed.

End Equations.

(** ** Sequences of events *)

Lemma run_cons (e : event) (evs : list event) (us : gmap Z string) :
  states_after (run (e :: evs) us) = states_after (run evs (states_after (dispatch e us))) /\
  calls (run (e :: evs) us) =
    calls (dispatch e us) ++ calls (run evs (states_after (dispatch e us))).
Proof.
  cbn [run]. cbv [mbind handler_bind].
  destruct (dispatch e us) as [[[] us1] l1] eqn:E1. cbn [states_after calls fst snd].
  destruct (run evs us1) as [[[] us2] l2]. now cbn.
Qed.

(** ** The terminal state *)

(** An event of the user whose session is closed changes nothing in the
    dictionary and shows the lockout text, and nothing else. *)
Lemma dispatch_closed (e : event) (us : gmap Z string) (uid : Z) :
  sender e = Some uid ->
  us !! uid = Some STATE_CLOSED ->
  states_after (dispatch e us) = us /\
  messages (dispatch e us) = [(door_closed_text, None)].
Proof.
  intros Hs Hc.
  destruct e as [update|update|update]; cbn [dispatch sender] in *.
  - destruct (message update) as [m|] eqn:Hm; [|discriminate].
    injection Hs as Hs. rewrite (start_eq update us m Hm), Hs, Hc, state_eq_refl.
    now split.
  - destruct (message update) as [m|] eqn:Hm; [|discriminate].
    injection Hs as Hs.
    rewrite (handle_message_eq update us m Hm), Hs, Hc, state_eq_refl.
    now split.
  - destruct (callback_query update) as [q|] eqn:Hq; [|discriminate].
    injection Hs as Hs.
    rewrite (on_callback_query_eq update us q Hq), Hs, Hc, state_eq_refl.
    now split.
Qed.

(** No event, of any user, takes a closed session out of [STATE_CLOSED]. *)
Lemma dispatch_keeps_closed (e : event) (us : gmap Z string) (uid : Z) :
  us !! uid = Some STATE_CLOSED ->
  states_after (dispatch e us) !! uid = Some STATE_CLOSED.
Proof.
  intros Hc.
  assert (Hins : forall k s, state_eq (us !! k) STATE_CLOSED = false ->
                             <[k := s]> us !! uid = Some STATE_CLOSED).
  { intros k s Hk. apply state_eq_false in Hk.
    rewrite lookup_insert_ne; [exact Hc|]. intros ->. now apply Hk. }
  destruct e as [update|update|update]; cbn [dispatch].
  - destruct (message update) as [m|] eqn:Hm.
    + rewrite (start_eq update us m Hm).
      destruct (state_eq _ STATE_CLOSED) eqn:E; cbn; auto.
    + now rewrite start_no_message.
  - destruct (message update) as [m|] eqn:Hm.
    + rewrite (handle_message_eq update us m Hm).
      destruct (state_eq _ STATE_CLOSED) eqn:E; cbn; auto.
    + now rewrite handle_message_no_message.
  - destruct (callback_query update) as [q|] eqn:Hq.
    + rewrite (on_callback_query_eq update us q Hq).
      destruct (state_eq _ STATE_CLOSED) eqn:E; cbn; auto.
      destruct (data_eq _ "open_intro"); cbn; auto.
      destruct (data_eq _ "open_door" && _); cbn; auto.
    + now rewrite on_callback_query_no_query.
Qed.

Lemma run_keeps_closed (evs : list event) (us : gmap Z string) (uid : Z) :
  us !! uid = Some STATE_CLOSED ->
  states_after (run evs us) !! uid = Some STATE_CLOSED.
Proof.
  revert us. induction evs as [|e evs IH]; intros us Hc; [exact Hc|].
  rewrite (proj1 (run_cons e evs us)).
  apply IH. now apply dispatch_keeps_closed.
Qed.

(** C1. Once the stored state of a user is [STATE_CLOSED], it is
    [STATE_CLOSED] after every sequence of events (of any users, with any
    payloads), so the session never comes back to [STATE_NEW],
    [STATE_DOOR_SHOWN] or to having no entry; and every event of that user
    arriving afterwards (start command, text message or button press with
    any payload) leaves the whole dictionary as it is and shows exactly one
    message, the fixed lockout text. *)
Theorem closed_is_terminal (us : gmap Z string) (uid : Z) (evs : list event)
    (e : event) :
  us !! uid = Some STATE_CLOSED ->
  sender e = Some uid ->
  let us' := states_after (run evs us) in
  us' !! uid = Some STATE_CLOSED /\
  states_after (dispatch e us') = us' /\
  messages (dispatch e us') = [(door_closed_text, None)].
Proof.
  intros Hc Hs us'.
  assert (Hc' : us' !! uid = Some STATE_CLOSED) by now apply run_keeps_closed.
  split; [exact Hc'|]. now apply dispatch_closed with uid.
Qed.

Lemma closed_is_terminal_witness :
  let us : gmap Z string := {[ 42 := STATE_CLOSED ]} in
  let evs := [ text_message (message_from 42);
               button_press (press_from 42 "open_intro");
               start_command (message_from 7) ] in
  let us' := states_after (run evs us) in
  us' !! 42 = Some STATE_CLOSED /\
  states_after (dispatch (button_press (press_from 42 "open_door")) us') = us' /\
  messages (dispatch (button_press (press_from 42 "open_door")) us')
    = [(door_closed_text, None)].
Proof.
  apply (closed_is_terminal {[ 42 := STATE_CLOSED ]} 42
           [ text_message (message_from 42);
             button_press (press_from 42 "open_intro");
             start_command (message_from 7) ]
           (button_press (press_from 42 "open_door"))).
  - reflexivity.
  - reflexivity.
Defined.

(** ** Button presses *)

(** Evaluate the comparisons whose two sides are known. *)
Ltac eval_tests :=
  repeat match goal with
    | |- context [state_eq None ?b] => change (state_eq None b) with false
    | |- context [data_eq None ?b] => change (data_eq None b) with false
    | |- context [state_eq (Some ?a) ?b] =>
        let v := eval vm_compute in (state_eq (Some a) b) in
        match v with
        | true => change (state_eq (Some a) b) with true
        | false => change (state_eq (Some a) b) with false
        end
    | |- context [data_eq (Some ?a) ?b] =>
        let v := eval vm_compute in (data_eq (Some a) b) in
        match v with
        | true => change (data_eq (Some a) b) with true
        | false => change (data_eq (Some a) b) with false
        end
    end;
  cbn [andb].

(** C2 (as amended). In [STATE_DOOR_SHOWN], a press with payload
    [open_door] stores [STATE_CLOSED]; a press with payload [open_intro]
    leaves the dictionary as it is but shows the door again (text and
    keyboard); a press with any other payload, or with none, leaves the
    dictionary as it is and shows no message. *)
Theorem door_shown_button_press (update : Update) (query : CallbackQuery)
    (us : gmap Z string) :
  callback_query update = Some query ->
  us !! User_id (from_user query) = Some STATE_DOOR_SHOWN ->
  let r := on_callback_query update us in
  (data query = Some "open_door" ->
     states_after r = <[User_id (from_user query) := STATE_CLOSED]> us /\
     states_after r !! User_id (from_user query) = Some STATE_CLOSED) /\
  (data query = Some "open_intro" ->
     states_after r = us /\
     messages r = [(door_text, Some door_keyboard)]) /\
  (data query <> Some "open_door" -> data query <> Some "open_intro" ->
     states_after r = us /\ messages r = []).
Proof.
  intros Hq Hs r. subst r. rewrite (on_callback_query_eq update us query Hq), Hs.
  repeat split.
  - rewrite H. now eval_tests.
  - rewrite H. eval_tests. apply lookup_insert_eq.
  - rewrite H. eval_tests. cbn. now apply insert_id.
  - rewrite H. now eval_tests.
  - apply data_eq_false in H, H0. rewrite H, H0. now eval_tests.
  - apply data_eq_false in H, H0. rewrite H, H0. now eval_tests.
Qed.

Lemma door_shown_button_press_witness :
  let us : gmap Z string := {[ 42 := STATE_DOOR_SHOWN ]} in
  states_after (on_callback_query (press_from 42 "open_door") us) !! 42
    = Some STATE_CLOSED /\
  messages (on_callback_query (press_from 42 "open_intro") us)
    = [(door_text, Some door_keyboard)] /\
  messages (on_callback_query (press_from 42 "something_else") us) = [].
Proof.
  intros us. split; [|split].
  - apply (door_shown_button_press (press_from 42 "open_door")
             (query_from 42 "open_door") us eq_refl eq_refl).
    reflexivity.
  - apply (door_shown_button_press (press_from 42 "open_intro")
             (query_from 42 "open_intro") us eq_refl eq_refl).
    reflexivity.
  - apply (door_shown_button_press (press_from 42 "something_else")
             (query_from 42 "something_else") us eq_refl eq_refl);
      discriminate.
Defined.

(** C2, as stated, fails: in [STATE_DOOR_SHOWN] the payload [open_intro] is
    not [open_door], and yet the press shows a message (the door, again). *)
Lemma door_shown_open_intro_shows_door :
  let us : gmap Z string := {[ 42 := STATE_DOOR_SHOWN ]} in
  let update := press_from 42 "open_intro" in
  us !! 42 = Some STATE_DOOR_SHOWN /\
  Some "open_intro" <> Some "open_door" /\
  messages (on_callback_query update us) = [(door_text, Some door_keyboard)] /\
  messages (on_callback_query update us) <> [].
Proof.
  intros us update. repeat split; try reflexivity; discriminate.
Qed.

(** C3 (as amended). For a user with no entry in the dictionary, a first
    event that is a start command or a text message stores [STATE_NEW] and
    shows the intro (text and keyboard); a first button press with payload
    [open_intro] stores [STATE_DOOR_SHOWN] and shows the door; a first
    button press with any other payload stores nothing and shows nothing. *)
Theorem first_event_of_unseen_user (e : event) (us : gmap Z string) (uid : Z) :
  sender e = Some uid ->
  us !! uid = None ->
  let r := dispatch e us in
  match e with
  | start_command _ | text_message _ =>
      states_after r !! uid = Some STATE_NEW /\
      messages r = [(intro_text, Some intro_keyboard)]
  | button_press update =>
      (payload update = Some "open_intro" ->
         states_after r !! uid = Some STATE_DOOR_SHOWN /\
         messages r = [(door_text, Some door_keyboard)]) /\
      (payload update <> Some "open_intro" ->
         states_after r = us /\ messages r = [])
  end.
Proof.
  intros Hs Hn r. subst r.
  destruct e as [update|update|update]; cbn [dispatch sender] in *.
  - destruct (message update) as [m|] eqn:Hm; [|discriminate].
    injection Hs as Hs. rewrite (start_eq update us m Hm), Hs, Hn.
    eval_tests. split; [apply lookup_insert_eq | reflexivity].
  - destruct (message update) as [m|] eqn:Hm; [|discriminate].
    injection Hs as Hs. rewrite (handle_message_eq update us m Hm), Hs, Hn.
    eval_tests. split; [apply lookup_insert_eq | reflexivity].
  - unfold payload.
    destruct (callback_query update) as [q|] eqn:Hq; [|discriminate].
    injection Hs as Hs. cbn [mbind option_bind].
    rewrite (on_callback_query_eq update us q Hq), Hs, Hn. eval_tests.
    split; intros Hd.
    + rewrite Hd. eval_tests. split; [apply lookup_insert_eq | reflexivity].
    + apply data_eq_false in Hd. rewrite Hd.
      destruct (data_eq (data q) "open_door"); now split.
Qed.

Lemma first_event_of_unseen_user_witness :
  let us : gmap Z string := {[ 42 := STATE_CLOSED ]} in
  (states_after (start (message_from 7) us) !! 7 = Some STATE_NEW /\
   messages (start (message_from 7) us) = [(intro_text, Some intro_keyboard)]) /\
  (states_after (handle_message (message_from 7) us) !! 7 = Some STATE_NEW /\
   messages (handle_message (message_from 7) us)
     = [(intro_text, Some intro_keyboard)]) /\
  (states_after (on_callback_query (press_from 7 "open_intro") us) !! 7
     = Some STATE_DOOR_SHOWN /\
   messages (on_callback_query (press_from 7 "open_intro") us)
     = [(door_text, Some door_keyboard)]) /\
  (states_after (on_callback_query (press_from 7 "open_door") us) = us /\
   messages (on_callback_query (press_from 7 "open_door") us) = []).
Proof.
  intros us. split; [|split; [|split]].
  - exact (first_event_of_unseen_user (start_command (message_from 7)) us 7
             eq_refl eq_refl).
  - exact (first_event_of_unseen_user (text_message (message_from 7)) us 7
             eq_refl eq_refl).
  - apply (first_event_of_unseen_user
             (button_press (press_from 7 "open_intro")) us 7 eq_refl eq_refl).
    reflexivity.
  - apply (first_event_of_unseen_user
             (button_press (press_from 7 "open_door")) us 7 eq_refl eq_refl).
    discriminate.
Defined.

(** C3, as stated, fails: the first event of user 7 is a press on a button
    with payload [open_door]; afterwards the user still has no entry (so the
    state is not [STATE_NEW]) and no message was shown (so the intro was
    not). *)
Lemma first_press_of_unseen_user_stores_nothing :
  let us : gmap Z string := ∅ in
  let e := button_press (press_from 7 "open_door") in
  sender e = Some 7 /\
  us !! 7 = None /\
  states_after (dispatch e us) !! 7 = None /\
  states_after (dispatch e us) !! 7 <> Some STATE_NEW /\
  messages (dispatch e us) = [] /\
  messages (dispatch e us) <> [(intro_text, Some intro_keyboard)].
Proof.
  intros us e. repeat split; try reflexivity; discriminate.
Qed.

(** C4. In [STATE_DOOR_SHOWN], a press with payload [open_door] stores
    [STATE_CLOSED] and shows exactly four messages, in this order: the
    empty-space text, the gift text, the closing text and the final
    confirmation; none of them carries a keyboard. The first one replaces the
    message that carried the button, the other three are replies to it. *)
Theorem open_door_sequence (update : Update) (query : CallbackQuery)
    (us : gmap Z string) :
  callback_query update = Some query ->
  us !! User_id (from_user query) = Some STATE_DOOR_SHOWN ->
  data query = Some "open_door" ->
  let r := on_callback_query update us in
  states_after r !! User_id (from_user query) = Some STATE_CLOSED /\
  states_after r = <[User_id (from_user query) := STATE_CLOSED]> us /\
  messages r = [(text_1, None); (text_2, None);
                (closing_text, None); (closed_text, None)] /\
  filter (fun c => bool_decide (is_Some (shown c))) (calls r) =
    [edit_message_text text_1 None; message_reply_text text_2;
     message_reply_text closing_text; message_reply_text closed_text].
Proof.
  intros Hq Hs Hd r. subst r.
  rewrite (on_callback_query_eq update us query Hq), Hs, Hd. eval_tests.
  repeat split. apply lookup_insert_eq.
Qed.

Lemma open_door_sequence_witness :
  let us : gmap Z string := {[ 42 := STATE_DOOR_SHOWN ]} in
  let r := on_callback_query (press_from 42 "open_door") us in
  states_after r !! 42 = Some STATE_CLOSED /\
  states_after r = <[42 := STATE_CLOSED]> us /\
  messages r = [(text_1, None); (text_2, None);
                (closing_text, None); (closed_text, None)] /\
  filter (fun c => bool_decide (is_Some (shown c))) (calls r) =
    [edit_message_text text_1 None; message_reply_text text_2;
     message_reply_text closing_text; message_reply_text closed_text].
Proof.
  exact (open_door_sequence (press_from 42 "open_door")
           (query_from 42 "open_door") {[ 42 := STATE_DOOR_SHOWN ]}
           eq_refl eq_refl eq_refl).
Defined.

(** C5. With no entry or with [STATE_NEW], a press with payload [open_door]
    changes nothing in the dictionary and shows no message. *)
Theorem open_door_too_early (update : Update) (query : CallbackQuery)
    (us : gmap Z string) :
  callback_query update = Some query ->
  us !! User_id (from_user query) = None \/
    us !! User_id (from_user query) = Some STATE_NEW ->
  data query = Some "open_door" ->
  states_after (on_callback_query update us) = us /\
  messages (on_callback_query update us) = [].
Proof.
  intros Hq Hs Hd.
  rewrite (on_callback_query_eq update us query Hq), Hd.
  destruct Hs as [-> | ->]; now eval_tests.
Qed.

Lemma open_door_too_early_witness :
  (let us : gmap Z string := ∅ in
   states_after (on_callback_query (press_from 7 "open_door") us) = us /\
   messages (on_callback_query (press_from 7 "open_door") us) = []) /\
  (let us : gmap Z string := {[ 7 := STATE_NEW ]} in
   states_after (on_callback_query (press_from 7 "open_door") us) = us /\
   messages (on_callback_query (press_from 7 "open_door") us) = []).
Proof.
  split.
  - exact (open_door_too_early (press_from 7 "open_door")
             (query_from 7 "open_door") ∅ eq_refl (or_introl eq_refl) eq_refl).
  - exact (open_door_too_early (press_from 7 "open_door")
             (query_from 7 "open_door") {[ 7 := STATE_NEW ]}
             eq_refl (or_intror eq_refl) eq_refl).
Defined.

(** C6. With no entry or with [STATE_NEW], a press with payload
    [open_intro] stores [STATE_DOOR_SHOWN] and shows one message: the door
    text (which begins with the door drawing) together with a keyboard of
    one row of one button, whose payload is [open_door]. *)
Theorem open_intro_shows_door (update : Update) (query : CallbackQuery)
    (us : gmap Z string) :
  callback_query update = Some query ->
  us !! User_id (from_user query) = None \/
    us !! User_id (from_user query) = Some STATE_NEW ->
  data query = Some "open_intro" ->
  let r := on_callback_query update us in
  states_after r !! User_id (from_user query) = Some STATE_DOOR_SHOWN /\
  states_after r = <[User_id (from_user query) := STATE_DOOR_SHOWN]> us /\
  messages r = [(door_text, Some door_keyboard)] /\
  String.prefix door_art door_text = true /\
  map (map callback_data) door_keyboard = [["open_door"]].
Proof.
  intros Hq Hs Hd r. subst r.
  rewrite (on_callback_query_eq update us query Hq), Hd.
  destruct Hs as [-> | ->]; eval_tests;
    (repeat split; [apply lookup_insert_eq]).
Qed.

Lemma open_intro_shows_door_witness :
  (let us : gmap Z string := ∅ in
   let r := on_callback_query (press_from 7 "open_intro") us in
   states_after r !! 7 = Some STATE_DOOR_SHOWN /\
   states_after r = <[7 := STATE_DOOR_SHOWN]> us /\
   messages r = [(door_text, Some door_keyboard)] /\
   String.prefix door_art door_text = true /\
   map (map callback_data) door_keyboard = [["open_door"]]) /\
  (let us : gmap Z string := {[ 7 := STATE_NEW ]} in
   let r := on_callback_query (press_from 7 "open_intro") us in
   states_after r !! 7 = Some STATE_DOOR_SHOWN /\
   states_after r = <[7 := STATE_DOOR_SHOWN]> us /\
   messages r = [(door_text, Some door_keyboard)] /\
   String.prefix door_art door_text = true /\
   map (map callback_data) door_keyboard = [["open_door"]]).
Proof.
  split.
  - exact (open_intro_shows_door (press_from 7 "open_intro")
             (query_from 7 "open_intro") ∅ eq_refl (or_introl eq_refl) eq_refl).
  - exact (open_intro_shows_door (press_from 7 "open_intro")
             (query_from 7 "open_intro") {[ 7 := STATE_NEW ]}
             eq_refl (or_intror eq_refl) eq_refl).
Defined.

(** ** Text messages *)

(** C7. In [STATE_DOOR_SHOWN], a text message runs the start flow: the
    stored state becomes [STATE_NEW] (it is not kept at
    [STATE_DOOR_SHOWN]) and the intro is shown, and nothing else. *)
Theorem text_message_resets_door_shown (update : Update) (m : Message)
    (us : gmap Z string) :
  message update = Some m ->
  us !! User_id (effective_user update) = Some STATE_DOOR_SHOWN ->
  let r := handle_message update us in
  states_after r !! User_id (effective_user update) = Some STATE_NEW /\
  states_after r !! User_id (effective_user update) <> Some STATE_DOOR_SHOWN /\
  states_after r = <[User_id (effective_user update) := STATE_NEW]> us /\
  messages r = [(intro_text, Some intro_keyboard)] /\
  calls r = calls (get (User_id (effective_user update)) us)
              ++ calls (start update us).
Proof.
  intros Hm Hs r. subst r.
  rewrite (handle_message_eq update us m Hm), (start_eq update us m Hm), Hs.
  eval_tests. cbn [states_after fst snd].
  rewrite lookup_insert_eq. repeat split. discriminate.
Qed.

Lemma text_message_resets_door_shown_witness :
  let us : gmap Z string := {[ 42 := STATE_DOOR_SHOWN ]} in
  let r := handle_message (message_from 42) us in
  states_after r !! 42 = Some STATE_NEW /\
  states_after r !! 42 <> Some STATE_DOOR_SHOWN /\
  states_after r = <[42 := STATE_NEW]> us /\
  messages r = [(intro_text, Some intro_keyboard)] /\
  calls r = calls (get 42 us) ++ calls (start (message_from 42) us).
Proof.
  exact (text_message_resets_door_shown (message_from 42) (mkMessage 1)
           {[ 42 := STATE_DOOR_SHOWN ]} eq_refl eq_refl).
Defined.

(** ** Startup *)

(** C8. When [BOT_TOKEN] is not in the environment, or is the empty
    string, [main] raises [RuntimeError] having made no call at all: the
    application is not built, no handler is registered and polling is not
    started. With a non-empty [BOT_TOKEN], [main] raises nothing: it builds
    the application with that token, registers the three handlers and starts
    polling. *)
Theorem main_needs_token (environ : gmap string string) :
  (environ !! "BOT_TOKEN" = None \/ environ !! "BOT_TOKEN" = Some EmptyString ->
     main environ = ([], Some (RuntimeError token_missing_text))) /\
  (forall token : string,
     environ !! "BOT_TOKEN" = Some token -> token <> EmptyString ->
     snd (main environ) = None /\
     fst (main environ) =
       [ build_application token;
         add_handler (CommandHandler "start");
         add_handler CallbackQueryHandler;
         add_handler MessageHandler_text_not_command;
         logger_info "Бот запущен. Нажми Ctrl+C для остановки.";
         run_polling ]).
Proof.
  unfold main. split.
  - intros [-> | ->]; reflexivity.
  - intros token -> Hne. destruct token as [|a token]; [now destruct Hne|].
    now split.
Qed.

Lemma main_needs_token_witness :
  main ∅ = ([], Some (RuntimeError token_missing_text)) /\
  main {[ "BOT_TOKEN" := EmptyString ]}
    = ([], Some (RuntimeError token_missing_text)) /\
  snd (main {[ "BOT_TOKEN" := "123:abc" ]}) = None /\
  fst (main {[ "BOT_TOKEN" := "123:abc" ]}) =
    [ build_application "123:abc";
      add_handler (CommandHandler "start");
      add_handler CallbackQueryHandler;
      add_handler MessageHandler_text_not_command;
      logger_info "Бот запущен. Нажми Ctrl+C для остановки.";
      run_polling ].
Proof.
  split; [|split].
  - exact (proj1 (main_needs_token ∅) (or_introl eq_refl)).
  - exact (proj1 (main_needs_token {[ "BOT_TOKEN" := EmptyString ]})
             (or_intror eq_refl)).
  - apply (proj2 (main_needs_token {[ "BOT_TOKEN" := "123:abc" ]}) "123:abc").
    + reflexivity.
    + discriminate.
Defined.

(** ** Values stored in the dictionary *)

(** Every [states_set] in a list of calls written out in full wrote a
    state name already known to be valid. *)
Ltac writes_valid :=
  let Hi := fresh "Hi" in
  let Hs := fresh "Hs" in
  intros ? ? Hi; cbn [In] in Hi;
  repeat (destruct Hi as [Hi | Hi];
          [try discriminate Hi; injection Hi as _ Hs; rewrite <- Hs; assumption|]);
  destruct Hi.

(** One event writes at most one entry, and then one of the three state
    names; the calls it logs as writes are of the same kind. *)
Lemma dispatch_states (e : event) (us : gmap Z string) :
  (states_after (dispatch e us) = us \/
   exists k s, valid_state s /\ states_after (dispatch e us) = <[k := s]> us) /\
  (forall k s, In (states_set k s) (calls (dispatch e us)) -> valid_state s).
Proof.
  assert (Hnew : valid_state STATE_NEW) by (left; reflexivity).
  assert (Hdoor : valid_state STATE_DOOR_SHOWN) by (right; left; reflexivity).
  assert (Hclosed : valid_state STATE_CLOSED) by (right; right; reflexivity).
  destruct e as [update|update|update]; cbn [dispatch].
  - destruct (message update) as [m|] eqn:Hm.
    + rewrite (start_eq update us m Hm).
      destruct (state_eq _ STATE_CLOSED); cbn [states_after calls fst snd];
        (split; [eauto | writes_valid]).
    + rewrite start_no_message by assumption. split; [now left | intros ? ? []].
  - destruct (message update) as [m|] eqn:Hm.
    + rewrite (handle_message_eq update us m Hm).
      destruct (state_eq _ STATE_CLOSED); cbn [states_after calls fst snd];
        (split; [eauto | writes_valid]).
    + rewrite handle_message_no_message by assumption.
      split; [now left | intros ? ? []].
  - destruct (callback_query update) as [q|] eqn:Hq.
    + rewrite (on_callback_query_eq update us q Hq).
      destruct (state_eq _ STATE_CLOSED);
        [|destruct (data_eq _ "open_intro");
          [|destruct (data_eq _ "open_door" && _)]];
        cbn [states_after calls fst snd];
        (split; [eauto | writes_valid]).
    + rewrite on_callback_query_no_query by assumption.
      split; [now left | intros ? ? []].
Qed.

(** C9. Starting from a dictionary whose values are all among ["new"],
    ["door_shown"] and ["closed"] (the empty dictionary of [bot.py] is one),
    after every sequence of events every stored value is one of these three
    strings, every write the handlers made wrote one of them, and every
    user that had an entry still has one. *)
Theorem stored_states_valid (evs : list event) (us : gmap Z string) :
  (forall uid s, us !! uid = Some s -> valid_state s) ->
  let r := run evs us in
  (forall uid s, states_after r !! uid = Some s ->
     s = "new" \/ s = "door_shown" \/ s = "closed") /\
  (forall uid s, In (states_set uid s) (calls r) ->
     s = "new" \/ s = "door_shown" \/ s = "closed") /\
  (forall uid, is_Some (us !! uid) -> is_Some (states_after r !! uid)).
Proof.
  revert us. induction evs as [|e evs IH]; intros us Hv r; subst r.
  - repeat split; [exact Hv | intros ? ? [] | auto].
  - destruct (run_cons e evs us) as [-> ->].
    destruct (dispatch_states e us) as [Hst Hw].
    assert (Hv1 : forall uid s, states_after (dispatch e us) !! uid = Some s ->
                                valid_state s).
    { destruct Hst as [-> | (k & s & Hs & ->)]; [exact Hv|].
      intros uid s'. rewrite lookup_insert.
      case_decide; [intros [= <-]; exact Hs | apply Hv]. }
    assert (Hd1 : forall uid, is_Some (us !! uid) ->
                              is_Some (states_after (dispatch e us) !! uid)).
    { destruct Hst as [-> | (k & s & Hs & ->)]; [auto|].
      intros uid Hu. rewrite lookup_insert. case_decide; [eauto | exact Hu]. }
    destruct (IH _ Hv1) as (IH1 & IH2 & IH3).
    repeat split.
    + exact IH1.
    + intros uid s Hin. apply in_app_or in Hin as [Hin | Hin].
      * exact (Hw _ _ Hin).
      * exact (IH2 _ _ Hin).
    + intros uid Hu. apply IH3, Hd1, Hu.
Qed.

Lemma stored_states_valid_witness :
  let us : gmap Z string := {[ 42 := STATE_DOOR_SHOWN ]} in
  let evs := [ start_command (message_from 7);
               button_press (press_from 42 "open_door");
               button_press (press_from 7 "open_intro");
               text_message (message_from 42) ] in
  let r := run evs us in
  (forall uid s, states_after r !! uid = Some s ->
     s = "new" \/ s = "door_shown" \/ s = "closed") /\
  (forall uid s, In (states_set uid s) (calls r) ->
     s = "new" \/ s = "door_shown" \/ s = "closed") /\
  (forall uid, is_Some (us !! uid) -> is_Some (states_after r !! uid)).
Proof.
  intros us evs. apply (stored_states_valid evs us).
  intros uid s H. apply lookup_singleton_Some in H as [_ <-].
  right; left; reflexivity.
Defined.

(** ** Acknowledging a button press *)

(** C10. Whatever the payload and whatever the dictionary holds, the
    calls made for a button press begin with [query.answer()], and that is
    the only [answer] among them; so it comes before the lookup of the state
    and before anything that depends on it, also when the session is closed
    and when the press is otherwise ignored. *)
Theorem button_press_acknowledged_first (update : Update)
    (query : CallbackQuery) (us : gmap Z string) :
  callback_query update = Some query ->
  exists rest : list call,
    calls (on_callback_query update us) = answer :: rest /\
    ~ In answer rest /\
    length (filter (fun c => is_answer c = true) (calls (on_callback_query update us))) = 1%nat /\
    forall before c after,
      calls (on_callback_query update us) = before ++ c :: after ->
      is_state_access c = true -> In answer before.
Proof.
  intros Hq. rewrite (on_callback_query_eq update us query Hq).
  assert (Hfirst : forall rest before c after,
            answer :: rest = before ++ c :: after ->
            is_state_access c = true -> In answer before).
  { intros rest [|b before] c after Heq Hc.
    - injection Heq as <- _. discriminate.
    - injection Heq as <- _. now left. }
  destruct (state_eq _ STATE_CLOSED);
    [|destruct (data_eq _ "open_intro");
      [|destruct (data_eq _ "open_door" && _)]];
    cbn [calls snd]; eexists;
    (split; [reflexivity|]; split; [|split; [reflexivity | apply Hfirst]]);
    cbn [In]; intros Hi; repeat (destruct Hi as [Hi | Hi]; [discriminate|]);
    exact Hi.
Qed.

Lemma button_press_acknowledged_first_witness :
  exists rest : list call,
    calls (on_callback_query (press_from 42 "anything") {[ 42 := STATE_CLOSED ]})
      = answer :: rest /\
    ~ In answer rest /\
    length (filter (fun c => is_answer c = true)
              (calls (on_callback_query (press_from 42 "anything")
                        {[ 42 := STATE_CLOSED ]}))) = 1%nat /\
    forall before c after,
      calls (on_callback_query (press_from 42 "anything") {[ 42 := STATE_CLOSED ]})
        = before ++ c :: after ->
      is_state_access c = true -> In answer before.
Proof.
  exact (button_press_acknowledged_first (press_from 42 "anything")
           (query_from 42 "anything") {[ 42 := STATE_CLOSED ]} eq_refl).
Defined.

(** * Further properties of the handlers *)

(** Case analysis on the handler an event is dispatched to, and on the
    presence of the object the handler tests first; each case is rewritten
    with the equation of that handler. *)
Ltac by_handler e us :=
  let update := fresh "update" in
  let m := fresh "m" in
  let q := fresh "q" in
  let Hm := fresh "Hm" in
  let Hq := fresh "Hq" in
  destruct e as [update|update|update]; cbn [dispatch sender] in *;
  [ destruct (message update) as [m|] eqn:Hm;
    [ rewrite ?(start_eq update us m Hm)
    | rewrite ?(start_no_message update us Hm) ]
  | destruct (message update) as [m|] eqn:Hm;
    [ rewrite ?(handle_message_eq update us m Hm)
    | rewrite ?(handle_message_no_message update us Hm) ]
  | destruct (callback_query update) as [q|] eqn:Hq;
    [ rewrite ?(on_callback_query_eq update us q Hq)
    | rewrite ?(on_callback_query_no_query update us Hq) ] ];
  cbn [mbind option_bind] in *.

(** An event writes nothing, or one entry, and then the sender's. *)
Lemma dispatch_writes_sender (e : event) (us : gmap Z string) :
  states_after (dispatch e us) = us \/
  exists k s, sender e = Some k /\ states_after (dispatch e us) = <[k := s]> us.
Proof.
  by_handler e us.
  - destruct (state_eq _ STATE_CLOSED); cbn; eauto.
  - now left.
  - destruct (state_eq _ STATE_CLOSED); cbn; eauto.
  - now left.
  - destruct (state_eq _ STATE_CLOSED); [cbn; eauto|].
    destruct (data_eq _ "open_intro"); [cbn; eauto|].
    destruct (data_eq _ "open_door" && _); cbn; eauto.
  - now left.
Qed.

Lemma dispatch_frame (e : event) (us : gmap Z string) (uid : Z) :
  sender e <> Some uid ->
  states_after (dispatch e us) !! uid = us !! uid.
Proof.
  intros Hne. destruct (dispatch_writes_sender e us) as [-> | (k & s & Hk & ->)];
    [reflexivity|].
  apply lookup_insert_ne. intros ->. now apply Hne.
Qed.

(** What an event does to its sender's entry, and what it shows, depends
    on the dictionary through the sender's entry only. *)
Lemma dispatch_local (e : event) (us1 us2 : gmap Z string) (uid : Z) :
  sender e = Some uid ->
  us1 !! uid = us2 !! uid ->
  states_after (dispatch e us1) !! uid = states_after (dispatch e us2) !! uid /\
  messages (dispatch e us1) = messages (dispatch e us2).
Proof.
  intros Hs Heq.
  destruct e as [update|update|update]; cbn [dispatch sender] in *.
  - destruct (message update) as [m|] eqn:Hm; [|discriminate].
    injection Hs as Hs.
    rewrite (start_eq update us1 m Hm), (start_eq update us2 m Hm), Hs, Heq.
    destruct (state_eq _ STATE_CLOSED); cbn [states_after fst snd];
      [now rewrite Heq | now rewrite !lookup_insert_eq].
  - destruct (message update) as [m|] eqn:Hm; [|discriminate].
    injection Hs as Hs.
    rewrite (handle_message_eq update us1 m Hm),
            (handle_message_eq update us2 m Hm), Hs, Heq.
    destruct (state_eq _ STATE_CLOSED); cbn [states_after fst snd];
      [now rewrite Heq | now rewrite !lookup_insert_eq].
  - destruct (callback_query update) as [q|] eqn:Hq; [|discriminate].
    injection Hs as Hs.
    rewrite (on_callback_query_eq update us1 q Hq),
            (on_callback_query_eq update us2 q Hq), Hs, Heq.
    destruct (state_eq _ STATE_CLOSED);
      [cbn [states_after fst snd]; now rewrite Heq|].
    destruct (data_eq _ "open_intro");
      [cbn [states_after fst snd]; now rewrite !lookup_insert_eq|].
    destruct (data_eq _ "open_door" && _); cbn [states_after fst snd];
      [now rewrite !lookup_insert_eq | now rewrite Heq].
Qed.

(** ** Updates that do not carry what the handler expects *)

(** X1. An update without a message given to [start] or [handle_message],
    or without a callback query given to [on_callback_query], is dropped:
    the dictionary is not read, nothing is written, nothing is shown, and
    the button is not even acknowledged. *)
Theorem dispatch_without_subject_is_silent (e : event) (us : gmap Z string) :
  sender e = None ->
  dispatch e us = (tt, us, []).
Proof.
  intros Hs. by_handler e us; try discriminate; reflexivity.
Qed.

Lemma dispatch_without_subject_is_silent_witness :
  start (mkUpdate None (mkUser 42) (Some (query_from 42 "open_intro")))
        {[ 42 := STATE_NEW ]} = (tt, {[ 42 := STATE_NEW ]}, []) /\
  handle_message (mkUpdate None (mkUser 42) None)
        {[ 42 := STATE_CLOSED ]} = (tt, {[ 42 := STATE_CLOSED ]}, []) /\
  on_callback_query (message_from 42)
        {[ 42 := STATE_DOOR_SHOWN ]} = (tt, {[ 42 := STATE_DOOR_SHOWN ]}, []).
Proof.
  split; [|split].
  - exact (dispatch_without_subject_is_silent
             (start_command (mkUpdate None (mkUser 42)
                               (Some (query_from 42 "open_intro"))))
             {[ 42 := STATE_NEW ]} eq_refl).
  - exact (dispatch_without_subject_is_silent
             (text_message (mkUpdate None (mkUser 42) None))
             {[ 42 := STATE_CLOSED ]} eq_refl).
  - exact (dispatch_without_subject_is_silent
             (button_press (message_from 42))
             {[ 42 := STATE_DOOR_SHOWN ]} eq_refl).
Defined.

(** ** Users do not interfere *)

(** X2. Events sent by other users never touch the entry of user [uid]:
    after a sequence in which no event is sent by [uid], the entry of [uid]
    is what it was (present with the same value, or absent). *)
Theorem other_users_untouched (evs : list event) (us : gmap Z string)
    (uid : Z) :
  Forall (fun e => sender e <> Some uid) evs ->
  states_after (run evs us) !! uid = us !! uid.
Proof.
  intros Hall. revert us.
  induction Hall as [|e evs He _ IH]; intros us; [reflexivity|].
  rewrite (proj1 (run_cons e evs us)), IH. now apply dispatch_frame.
Qed.

Lemma other_users_untouched_witness :
  let us : gmap Z string := {[ 42 := STATE_DOOR_SHOWN ]} in
  let evs := [ start_command (message_from 7);
               button_press (press_from 7 "open_intro");
               button_press (press_from 7 "open_door");
               text_message (message_from 8) ] in
  states_after (run evs us) !! 42 = us !! 42 /\
  states_after (run evs us) !! 9 = us !! 9.
Proof.
  intros us evs. split.
  - apply (other_users_untouched evs us 42).
    repeat constructor; discriminate.
  - apply (other_users_untouched evs us 9).
    repeat constructor; discriminate.
Defined.

(** X3. The entry of a user after a sequence of events, and the messages
    shown in answer to that user's events, are the same as if only that
    user's events had been handled: the events of other users, wherever
    they fall in the sequence, change neither. *)
Theorem own_events_decide (evs : list event) (us : gmap Z string) (uid : Z) :
  states_after (run evs us) !! uid =
    states_after (run (events_of uid evs) us) !! uid /\
  responses uid evs us = responses uid (events_of uid evs) us.
Proof.
  assert (Hgen : forall us1 us2 : gmap Z string,
            us1 !! uid = us2 !! uid ->
            states_after (run evs us1) !! uid =
              states_after (run (events_of uid evs) us2) !! uid /\
            responses uid evs us1 = responses uid (events_of uid evs) us2).
  { induction evs as [|e evs IH]; intros us1 us2 Heq; [now split|].
    unfold events_of in *. rewrite (proj1 (run_cons e evs us1)).
    cbn [responses].
    destruct (decide (sender e = Some uid)) as [Hs | Hs].
    - rewrite filter_cons_True by exact Hs.
      rewrite (proj1 (run_cons e _ us2)). cbn [responses].
      destruct (dispatch_local e us1 us2 uid Hs Heq) as [Hst Hmsg].
      destruct (IH _ _ Hst) as [IH1 IH2].
      rewrite bool_decide_eq_true_2 by exact Hs.
      split; [exact IH1 | now rewrite Hmsg, IH2].
    - rewrite filter_cons_False by exact Hs.
      rewrite bool_decide_eq_false_2 by exact Hs. cbn [app].
      apply IH. now rewrite dispatch_frame. }
  now apply Hgen.
Qed.

(** ** Start command and text message *)

(** X4. A text message has the effect of the start command: on every
    update and every dictionary, [handle_message] leaves the same dictionary
    and shows the same messages as [start]. *)
Theorem handle_message_like_start (update : Update) (us : gmap Z string) :
  states_after (handle_message update us) = states_after (start update us) /\
  messages (handle_message update us) = messages (start update us).
Proof.
  destruct (message update) as [m|] eqn:Hm.
  - rewrite (handle_message_eq update us m Hm), (start_eq update us m Hm).
    destruct (state_eq _ STATE_CLOSED); now split.
  - now rewrite handle_message_no_message, start_no_message.
Qed.

(** X5. The start command is idempotent: sent a second time right after
    the first, it leaves the dictionary as the first left it and shows the
    same message again. *)
Theorem start_idempotent (update : Update) (us : gmap Z string) :
  let us1 := states_after (start update us) in
  states_after (start update us1) = us1 /\
  messages (start update us1) = messages (start update us).
Proof.
  intros us1. subst us1.
  destruct (message update) as [m|] eqn:Hm.
  - rewrite (start_eq update us m Hm).
    destruct (state_eq _ STATE_CLOSED) eqn:E; cbn [states_after fst snd].
    + rewrite (start_eq update us m Hm), E. now split.
    + rewrite (start_eq update _ m Hm), lookup_insert_eq. eval_tests.
      cbn [states_after fst snd]. now rewrite insert_insert_eq.
  - rewrite !start_no_message by assumption. now cbn.
Qed.

(** X6. In every state but the terminal one, with or without an entry, a
    start command or a text message is answered by exactly one message, the
    intro with its keyboard, and stores [STATE_NEW]; in the terminal state
    it is answered by exactly one message too, the lockout text. A message
    is never left without a reply. *)
Theorem message_gets_one_reply (e : event) (update : Update) (m : Message)
    (us : gmap Z string) :
  e = start_command update \/ e = text_message update ->
  message update = Some m ->
  let uid := User_id (effective_user update) in
  (us !! uid <> Some STATE_CLOSED ->
     states_after (dispatch e us) = <[uid := STATE_NEW]> us /\
     messages (dispatch e us) = [(intro_text, Some intro_keyboard)]) /\
  (us !! uid = Some STATE_CLOSED ->
     states_after (dispatch e us) = us /\
     messages (dispatch e us) = [(door_closed_text, None)]) /\
  length (messages (dispatch e us)) = 1%nat.
Proof.
  intros He Hm uid. subst uid.
  assert (Hd : states_after (dispatch e us) = states_after (start update us) /\
               messages (dispatch e us) = messages (start update us)).
  { destruct He as [-> | ->]; cbn [dispatch]; [now split|].
    apply handle_message_like_start. }
  destruct Hd as [-> ->]. rewrite (start_eq update us m Hm).
  split; [|split].
  - intros Hs%state_eq_false. now rewrite Hs.
  - intros Hs%state_eq_true. now rewrite Hs.
  - now destruct (state_eq _ STATE_CLOSED).
Qed.

Lemma message_gets_one_reply_witness :
  (let us : gmap Z string := {[ 42 := STATE_DOOR_SHOWN ]} in
   states_after (start (message_from 42) us) = <[42 := STATE_NEW]> us /\
   messages (start (message_from 42) us) = [(intro_text, Some intro_keyboard)]) /\
  (let us : gmap Z string := {[ 42 := STATE_CLOSED ]} in
   states_after (handle_message (message_from 42) us) = us /\
   messages (handle_message (message_from 42) us) = [(door_closed_text, None)]).
Proof.
  split.
  - apply (message_gets_one_reply (start_command (message_from 42))
             (message_from 42) (mkMessage 1) {[ 42 := STATE_DOOR_SHOWN ]}
             (or_introl eq_refl) eq_refl).
    discriminate.
  - apply (message_gets_one_reply (text_message (message_from 42))
             (message_from 42) (mkMessage 1) {[ 42 := STATE_CLOSED ]}
             (or_intror eq_refl) eq_refl).
    reflexivity.
Defined.

(** ** How the handlers compose *)

Lemma run_two (e1 e2 : event) (us : gmap Z string) :
  let us1 := states_after (dispatch e1 us) in
  states_after (run [e1; e2] us) = states_after (dispatch e2 us1) /\
  messages (run [e1; e2] us) =
    messages (dispatch e1 us) ++ messages (dispatch e2 us1).
Proof.
  intros us1. subst us1. unfold messages.
  destruct (run_cons e1 [e2] us) as [-> ->].
  destruct (run_cons e2 [] (states_after (dispatch e1 us))) as [-> ->].
  cbn [run]. rewrite omap_app, app_nil_r. now split.
Qed.

(** X7. A message between the two presses cancels the pending door. If a
    user whose session is not closed sends a start command or a text
    message and then presses the button with payload [open_door], the door
    does not open: the stored state is [STATE_NEW] and the only message
    shown is the intro. This holds in [STATE_DOOR_SHOWN] too. *)
Theorem message_cancels_pending_door (e : event) (update press : Update)
    (m : Message) (query : CallbackQuery) (us : gmap Z string) (uid : Z) :
  e = start_command update \/ e = text_message update ->
  message update = Some m ->
  User_id (effective_user update) = uid ->
  callback_query press = Some query ->
  User_id (from_user query) = uid ->
  data query = Some "open_door" ->
  us !! uid <> Some STATE_CLOSED ->
  let r := run [e; button_press press] us in
  states_after r !! uid = Some STATE_NEW /\
  messages r = [(intro_text, Some intro_keyboard)].
Proof.
  intros He Hm Hu Hq Hu' Hd Hs r. subst r.
  destruct (run_two e (button_press press) us) as [-> ->].
  destruct (message_gets_one_reply e update m us He Hm) as [Hopen _].
  rewrite Hu in Hopen. destruct (Hopen Hs) as [-> ->].
  cbn [dispatch]. rewrite (on_callback_query_eq press _ query Hq), Hu', Hd.
  rewrite lookup_insert_eq. eval_tests. cbn [states_after fst snd].
  now rewrite lookup_insert_eq.
Qed.

Lemma message_cancels_pending_door_witness :
  let us : gmap Z string := {[ 42 := STATE_DOOR_SHOWN ]} in
  let r := run [ text_message (message_from 42);
                 button_press (press_from 42 "open_door") ] us in
  states_after r !! 42 = Some STATE_NEW /\
  messages r = [(intro_text, Some intro_keyboard)].
Proof.
  apply (message_cancels_pending_door (text_message (message_from 42))
           (message_from 42) (press_from 42 "open_door") (mkMessage 1)
           (query_from 42 "open_door") {[ 42 := STATE_DOOR_SHOWN ]} 42
           (or_intror eq_refl) eq_refl eq_refl eq_refl eq_refl eq_refl).
  discriminate.
Defined.

(** X8. The two presses open the door from every state but the terminal
    one, the start command is not needed: if a user whose session is not
    closed (new, door shown, or no entry at all) presses [open_intro] and
    then [open_door], the stored state is [STATE_CLOSED] and five messages
    are shown, the door and then the four messages of the opening. *)
Theorem two_presses_open_the_door (press1 press2 : Update)
    (query1 query2 : CallbackQuery) (us : gmap Z string) (uid : Z) :
  callback_query press1 = Some query1 ->
  User_id (from_user query1) = uid ->
  data query1 = Some "open_intro" ->
  callback_query press2 = Some query2 ->
  User_id (from_user query2) = uid ->
  data query2 = Some "open_door" ->
  us !! uid <> Some STATE_CLOSED ->
  let r := run [button_press press1; button_press press2] us in
  states_after r !! uid = Some STATE_CLOSED /\
  messages r = [(door_text, Some door_keyboard);
                (text_1, None); (text_2, None);
                (closing_text, None); (closed_text, None)].
Proof.
  intros Hq1 Hu1 Hd1 Hq2 Hu2 Hd2 Hs%state_eq_false r. subst r.
  destruct (run_two (button_press press1) (button_press press2) us) as [-> ->].
  cbn [dispatch].
  rewrite (on_callback_query_eq press1 us query1 Hq1), Hu1, Hd1, Hs.
  eval_tests. cbn [states_after fst snd].
  rewrite (on_callback_query_eq press2 _ query2 Hq2), Hu2, Hd2.
  rewrite lookup_insert_eq. eval_tests. cbn [states_after fst snd].
  now rewrite lookup_insert_eq.
Qed.

Lemma two_presses_open_the_door_witness :
  let us : gmap Z string := ∅ in
  let r := run [ button_press (press_from 7 "open_intro");
                 button_press (press_from 7 "open_door") ] us in
  states_after r !! 7 = Some STATE_CLOSED /\
  messages r = [(door_text, Some door_keyboard);
                (text_1, None); (text_2, None);
                (closing_text, None); (closed_text, None)].
Proof.
  apply (two_presses_open_the_door (press_from 7 "open_intro")
           (press_from 7 "open_door") (query_from 7 "open_intro")
           (query_from 7 "open_door") ∅ 7
           eq_refl eq_refl eq_refl eq_refl eq_refl eq_refl).
  discriminate.
Defined.

(** ** The one way into the terminal state *)

(** X9. A session becomes closed in one way only: if the entry of a user
    is not [STATE_CLOSED] before an event and is [STATE_CLOSED] after it,
    then the event is a press by that user on a button with payload
    [open_door], and the entry was [STATE_DOOR_SHOWN]. No start command, no
    text message, no other payload and no other user closes a session. *)
Theorem closed_only_by_open_door (e : event) (us : gmap Z string) (uid : Z) :
  us !! uid <> Some STATE_CLOSED ->
  states_after (dispatch e us) !! uid = Some STATE_CLOSED ->
  exists update query,
    e = button_press update /\
    callback_query update = Some query /\
    User_id (from_user query) = uid /\
    data query = Some "open_door" /\
    us !! uid = Some STATE_DOOR_SHOWN.
Proof.
  intros Hs.
  assert (Hnot : forall k s, s <> STATE_CLOSED ->
                             <[k := s]> us !! uid <> Some STATE_CLOSED).
  { intros k s Hne. rewrite lookup_insert. case_decide; congruence. }
  by_handler e us.
  - destruct (state_eq _ STATE_CLOSED); [contradiction|].
    intros Hafter. now apply Hnot in Hafter.
  - contradiction.
  - destruct (state_eq _ STATE_CLOSED); [contradiction|].
    intros Hafter. now apply Hnot in Hafter.
  - contradiction.
  - destruct (state_eq _ STATE_CLOSED); [contradiction|].
    destruct (data_eq _ "open_intro");
      [intros Hafter; now apply Hnot in Hafter|].
    destruct (data_eq (data q) "open_door") eqn:Ed; cbn [andb];
      [|contradiction].
    destruct (state_eq _ STATE_DOOR_SHOWN) eqn:Est; [|contradiction].
    cbn [states_after fst snd]. intros Hafter.
    apply data_eq_true in Ed. apply state_eq_true in Est.
    rewrite lookup_insert in Hafter. case_decide; [|contradiction].
    subst uid. now exists update, q.
  - contradiction.
Qed.

Lemma closed_only_by_open_door_witness :
  exists update query,
    button_press (press_from 42 "open_door") = button_press update /\
    callback_query update = Some query /\
    User_id (from_user query) = 42 /\
    data query = Some "open_door" /\
    ({[ 42 := STATE_DOOR_SHOWN ]} : gmap Z string) !! 42
      = Some STATE_DOOR_SHOWN.
Proof.
  apply (closed_only_by_open_door (button_press (press_from 42 "open_door"))
           {[ 42 := STATE_DOOR_SHOWN ]} 42).
  - discriminate.
  - reflexivity.
Defined.

Lemma gifts_app (l1 l2 : list (string * option InlineKeyboardMarkup)) :
  gifts (l1 ++ l2) = (gifts l1 + gifts l2)%nat.
Proof. unfold gifts. now rewrite filter_app, length_app. Qed.

(** What one event of a user shows of the gift: nothing when it does not
    close the session, once when it does. *)
Lemma dispatch_gifts (e : event) (us : gmap Z string) (uid : Z) :
  sender e = Some uid ->
  (gifts (messages (dispatch e us)) = 0%nat) \/
  (gifts (messages (dispatch e us)) = 1%nat /\
   states_after (dispatch e us) !! uid = Some STATE_CLOSED).
Proof.
  intros Hs. by_handler e us; try discriminate; injection Hs as Hs.
  - destruct (state_eq _ STATE_CLOSED); now left.
  - destruct (state_eq _ STATE_CLOSED); now left.
  - destruct (state_eq _ STATE_CLOSED); [now left|].
    destruct (data_eq _ "open_intro"); [now left|].
    destruct (data_eq _ "open_door" && _); [|now left].
    right. split; [reflexivity|].
    cbn [states_after fst snd]. rewrite Hs. apply lookup_insert_eq.
Qed.

Lemma responses_closed (evs : list event) (us : gmap Z string) (uid : Z) :
  us !! uid = Some STATE_CLOSED ->
  gifts (responses uid evs us) = 0%nat.
Proof.
  revert us. induction evs as [|e evs IH]; intros us Hc; [reflexivity|].
  cbn [responses]. rewrite gifts_app.
  rewrite (IH _ (dispatch_keeps_closed e us uid Hc)).
  case_bool_decide as Hs; [|reflexivity].
  destruct (dispatch_closed e us uid Hs Hc) as [_ ->]. reflexivity.
Qed.

(** X10. The door opens once. Whatever the dictionary holds at the
    beginning and whatever events arrive, from this user and from others, in
    whatever order, the gift text is shown at most once in answer to the
    events of one user. *)
Theorem gift_shown_at_most_once (evs : list event) (us : gmap Z string)
    (uid : Z) :
  (gifts (responses uid evs us) <= 1)%nat.
Proof.
  revert us. induction evs as [|e evs IH]; intros us; [cbn; lia|].
  cbn [responses]. rewrite gifts_app.
  case_bool_decide as Hs.
  - destruct (dispatch_gifts e us uid Hs) as [-> | [-> Hc]].
    + apply IH.
    + rewrite (responses_closed evs _ uid Hc). lia.
  - apply IH.
Qed.

(** ** Counting over a sequence of events *)

Lemma dispatch_answers (e : event) (us : gmap Z string) :
  length (filter (fun c => is_answer c = true) (calls (dispatch e us))) =
    if is_press e then 1%nat else 0%nat.
Proof.
  by_handler e us; cbn [is_press]; rewrite ?Hq.
  - now destruct (state_eq _ STATE_CLOSED).
  - reflexivity.
  - now destruct (state_eq _ STATE_CLOSED).
  - reflexivity.
  - destruct (state_eq _ STATE_CLOSED); [reflexivity|].
    destruct (data_eq _ "open_intro"); [reflexivity|].
    now destruct (data_eq _ "open_door" && _).
  - reflexivity.
Qed.

(** X11. Over a whole sequence of events, [query.answer()] is called as
    many times as there are button presses carrying a callback query: once
    for each, never for a message. *)
Theorem answers_match_presses (evs : list event) (us : gmap Z string) :
  length (filter (fun c => is_answer c = true) (calls (run evs us))) =
    length (filter (fun e => is_press e = true) evs).
Proof.
  revert us. induction evs as [|e evs IH]; intros us; [reflexivity|].
  rewrite (proj2 (run_cons e evs us)), filter_app, length_app, IH,
          dispatch_answers.
  destruct (is_press e) eqn:E.
  - now rewrite filter_cons_True by exact E.
  - rewrite filter_cons_False; [reflexivity|]. now rewrite E.
Qed.

(** X12. Entries are created for senders only: after a sequence of
    events, every key of the dictionary was a key before or is the sender of
    one of the events. *)
Theorem keys_only_for_senders (evs : list event) (us : gmap Z string) :
  dom (states_after (run evs us)) ⊆ dom us ∪ list_to_set (omap sender evs).
Proof.
  revert us. induction evs as [|e evs IH]; intros us.
  - cbn. set_solver.
  - rewrite (proj1 (run_cons e evs us)). etrans; [apply IH|].
    assert (Hrest : (list_to_set (omap sender evs) : gset Z)
                      ⊆ list_to_set (omap sender (e :: evs))).
    { cbn [omap list_omap]. destruct (sender e) as [k|]; [|reflexivity].
      cbn [list_to_set]. apply union_subseteq_r. }
    destruct (dispatch_writes_sender e us) as [-> | (k & s & Hk & ->)].
    + apply union_mono; [reflexivity | exact Hrest].
    + rewrite dom_insert_L. cbn [omap list_omap]. rewrite Hk.
      cbn [list_to_set].
      apply union_least.
      * apply union_least; [|apply union_subseteq_l].
        etrans; [apply union_subseteq_l | apply union_subseteq_r].
      * etrans; [apply union_subseteq_r | apply union_subseteq_r].
Qed.

(** X13. Which handler writes what. A start command or a text message
    writes nothing but [STATE_NEW]; a button press writes nothing but
    [STATE_DOOR_SHOWN] or [STATE_CLOSED], never [STATE_NEW]; and every write
    is to the entry of the sender of the event. *)
Theorem writes_by_handler (e : event) (us : gmap Z string) (k : Z)
    (s : string) :
  In (states_set k s) (calls (dispatch e us)) ->
  sender e = Some k /\
  match e with
  | start_command _ | text_message _ => s = STATE_NEW
  | button_press _ => s = STATE_DOOR_SHOWN \/ s = STATE_CLOSED
  end.
Proof.
  by_handler e us.
  - destruct (state_eq _ STATE_CLOSED); cbn [calls snd In]; intros Hi;
      repeat (destruct Hi as [Hi | Hi];
              [try discriminate Hi; injection Hi as <- <-; now split|]);
      destruct Hi.
  - intros [].
  - destruct (state_eq _ STATE_CLOSED); cbn [calls snd In]; intros Hi;
      repeat (destruct Hi as [Hi | Hi];
              [try discriminate Hi; injection Hi as <- <-; now split|]);
      destruct Hi.
  - intros [].
  - destruct (state_eq _ STATE_CLOSED);
      [|destruct (data_eq _ "open_intro");
        [|destruct (data_eq _ "open_door" && _)]];
      cbn [calls snd In]; intros Hi;
      repeat (destruct Hi as [Hi | Hi];
              [try discriminate Hi; injection Hi as <- <-; split; auto|]);
      destruct Hi.
  - intros [].
Qed.

Lemma writes_by_handler_witness :
  sender (button_press (press_from 42 "open_door")) = Some 42 /\
  (STATE_CLOSED = STATE_DOOR_SHOWN \/ STATE_CLOSED = STATE_CLOSED).
Proof.
  apply (writes_by_handler (button_press (press_from 42 "open_door"))
           {[ 42 := STATE_DOOR_SHOWN ]} 42 STATE_CLOSED).
  cbn. right; right; left; reflexivity.
Defined.
